(** * ViCare binary sensors (homeassistant/components/vicare/binary_sensor.py)

    A shallow embedding of the descriptor tables, the entity builder and the
    polled sensor, with the properties of the polling adapter and of the
    builder proved over it.

    Python exceptions are explicit: a call either returns a value or raises,
    and a raise aborts the enclosing computation unless a handler catches it.
    Log output is the list of records a call emits. *)

From Stdlib Require Import List String Bool.
From Stdlib Require Import Lia.
Import ListNotations.
Open Scope string_scope.

(** ** Exceptions and results *)

(** The exception classes the module distinguishes.  A raised exception is
    classified by the first handler of [update] that would accept it (an
    [except] clause also accepts subclasses); the rate-limit and the
    invalid-data errors carry their text, which the log line interpolates.
    The text and the exact subclass of a connection or decoding error play
    no part in [update], which logs a constant line for them, and are not
    represented: [RequestsConnectionError] and [ValueError] each stand for
    every error their handler accepts.
    Everything no handler of this module names is [OtherException]. *)
Inductive PyException : Type :=
| PyViCareNotSupportedFeatureError
| RequestsConnectionError
| ValueError
| PyViCareRateLimitError (text : string)
| PyViCareInvalidDataError (text : string)
| AttributeError
| OtherException (class_name : string).

(** The outcome of a Python call. *)
Inductive Result (A : Type) : Type :=
| Return (a : A)
| Raise (e : PyException).

Arguments Return {A} a.
Arguments Raise {A} e.

Definition bind {A B : Type} (r : Result A) (k : A -> Result B) : Result B :=
  match r with
  | Return a => k a
  | Raise e => Raise e
  end.

Notation "x <- r ;; k" := (bind r (fun x => k))
  (at level 61, r at next level, right associativity).

(** ** The logger *)

Inductive LogLevel : Type := DEBUG | INFO | WARNING | ERROR.

Record LogRecord : Type := mkLogRecord {
  levelname : LogLevel;
  message : string
}.

(** [_LOGGER.error(msg)] *)
Definition _LOGGER_error (msg : string) : LogRecord := mkLogRecord ERROR msg.

(** ** The vendor client *)

(** The boolean getters the descriptor tables call. *)
Inductive Getter : Type :=
| getCirculationPumpActive
| getFrostProtectionActive
| getActive
| getSolarPumpActive
| getDomesticHotWaterChargingActive
| getDomesticHotWaterCirculationPumpActive
| getDomesticHotWaterPumpActive.

(** A value of type [bool | None]. *)
Definition PyBool : Type := option bool.

(** A device or component object as a caller meets it at one moment: what
    each of its getters does when called now. *)
Definition PyViCareDevice : Type := Getter -> Result PyBool.

(** A reference to a device or a component object.  The object behind it
    belongs to the vendor client; its answers change over time. *)
Definition Handle : Type := nat.

(** The vendor client at one moment: the object behind every reference. *)
Definition Cloud : Type := Handle -> PyViCareDevice.

(** The device configuration, opaque to this module. *)
Record PyViCareDeviceConfig : Type := mkDeviceConfig {
  serial : string
}.

(** ** Descriptors *)

Inductive BinarySensorDeviceClass : Type := RUNNING.

Record ViCareBinarySensorEntityDescription : Type := mkDescription {
  key : string;
  translation_key : option string;
  icon : option string;
  device_class : option BinarySensorDeviceClass;
  value_getter : PyViCareDevice -> Result PyBool
}.

Definition CIRCUIT_SENSORS : list ViCareBinarySensorEntityDescription :=
  [ mkDescription "circulationpump_active"
      (Some "circulation_pump")
      (Some "mdi:pump")
      (Some RUNNING)
      (fun api => api getCirculationPumpActive);
    mkDescription "frost_protection_active"
      (Some "frost_protection")
      (Some "mdi:snowflake")
      None
      (fun api => api getFrostProtectionActive) ].

Definition BURNER_SENSORS : list ViCareBinarySensorEntityDescription :=
  [ mkDescription "burner_active"
      (Some "burner")
      (Some "mdi:gas-burner")
      (Some RUNNING)
      (fun api => api getActive) ].

Definition COMPRESSOR_SENSORS : list ViCareBinarySensorEntityDescription :=
  [ mkDescription "compressor_active"
      (Some "compressor")
      None
      (Some RUNNING)
      (fun api => api getActive) ].

Definition GLOBAL_SENSORS : list ViCareBinarySensorEntityDescription :=
  [ mkDescription "solar_pump_active"
      (Some "solar_pump")
      (Some "mdi:pump")
      (Some RUNNING)
      (fun api => api getSolarPumpActive);
    mkDescription "charging_active"
      (Some "domestic_hot_water_charging")
      None
      (Some RUNNING)
      (fun api => api getDomesticHotWaterChargingActive);
    mkDescription "dhw_circulationpump_active"
      (Some "domestic_hot_water_circulation_pump")
      (Some "mdi:pump")
      (Some RUNNING)
      (fun api => api getDomesticHotWaterCirculationPumpActive);
    mkDescription "dhw_pump_active"
      (Some "domestic_hot_water_pump")
      (Some "mdi:pump")
      (Some RUNNING)
      (fun api => api getDomesticHotWaterPumpActive) ].

(** ** The polled sensor *)

(** The attributes of a [ViCareBinarySensor] instance. *)
Record ViCareBinarySensor : Type := mkSensor {
  _api : Handle;
  _device_config : PyViCareDeviceConfig;
  entity_description : ViCareBinarySensorEntityDescription;
  _attr_is_on : PyBool
}.

(** Modelled from the spec: the base classes [ViCareEntity] and
    [BinarySensorEntity] are not in binary_sensor.py.  The constructor
    binds the device or component and the descriptor, and the sensor holds
    the last known boolean or nothing; a new sensor holds nothing. *)
Definition __init__ (api : Handle) (device_config : PyViCareDeviceConfig)
    (description : ViCareBinarySensorEntityDescription) : ViCareBinarySensor :=
  mkSensor api device_config description None.

(** [self._attr_is_on is not None] *)
Definition available (self : ViCareBinarySensor) : bool :=
  match _attr_is_on self with
  | Some _ => true
  | None => false
  end.

(** [self._attr_is_on = v] *)
Definition set_attr_is_on (v : PyBool) (self : ViCareBinarySensor)
    : ViCareBinarySensor :=
  mkSensor (_api self) (_device_config self) (entity_description self) v.

(** What a call of a method leaves behind: the object after the call, the
    records it logged, and whether it returned or raised. *)
Record Effect : Type := mkEffect {
  after : ViCareBinarySensor;
  logged : list LogRecord;
  outcome : Result unit
}.

(** [with suppress(PyViCareNotSupportedFeatureError): self._attr_is_on = ...]:
    the assignment happens when the getter returns; the not-supported error
    ends the block quietly; any other error leaves the block. *)
Definition update_suppressed (cloud : Cloud) (self : ViCareBinarySensor)
    : Result ViCareBinarySensor :=
  match value_getter (entity_description self) (cloud (_api self)) with
  | Return v => Return (set_attr_is_on v self)
  | Raise PyViCareNotSupportedFeatureError => Return self
  | Raise e => Raise e
  end.

(** [ViCareBinarySensor.update]: the [try] around the suppressed block with
    its four handlers, in their order. *)
Definition update (cloud : Cloud) (self : ViCareBinarySensor) : Effect :=
  match update_suppressed cloud self with
  | Return self' => mkEffect self' [] (Return tt)
  | Raise RequestsConnectionError =>
      mkEffect self
        [_LOGGER_error "Unable to retrieve data from ViCare server"]
        (Return tt)
  | Raise ValueError =>
      mkEffect self
        [_LOGGER_error "Unable to decode data from ViCare server"]
        (Return tt)
  | Raise (PyViCareRateLimitError limit_exception) =>
      mkEffect self
        [_LOGGER_error ("Vicare API rate limit exceeded: " ++ limit_exception)]
        (Return tt)
  | Raise (PyViCareInvalidDataError invalid_data_exception) =>
      mkEffect self
        [_LOGGER_error
           ("Invalid data from Vicare server: " ++ invalid_data_exception)]
        (Return tt)
  | Raise e => mkEffect self [] (Raise e)
  end.

(** A run of polls, one per moment of the vendor client, oldest first.  The
    host calls [update] on its schedule; an exception that leaves one poll
    does not stop the next. *)
Fixpoint polls (clouds : list Cloud) (self : ViCareBinarySensor)
    : ViCareBinarySensor :=
  match clouds with
  | [] => self
  | cloud :: later => polls later (after (update cloud self))
  end.

(** ** The entity builder *)

Section Builder.

(** The helpers of utils.py are not in binary_sensor.py; the builder is
    written over any behaviour they may have, raising included. *)
Variable is_supported :
  string -> ViCareBinarySensorEntityDescription -> Handle -> Result bool.
Variables get_circuits get_burners get_compressors :
  Handle -> Result (list Handle).

(** [[ViCareBinarySensor(api, device_config, description)
      for description in entity_descriptions
      if is_supported(description.key, description, api)]]:
    the descriptions are probed in order and the first raise ends the
    comprehension. *)
Fixpoint sensors_of (api : Handle) (device_config : PyViCareDeviceConfig)
    (entity_descriptions : list ViCareBinarySensorEntityDescription)
    : Result (list ViCareBinarySensor) :=
  match entity_descriptions with
  | [] => Return []
  | description :: rest =>
      supported <- is_supported (key description) description api ;;
      let created :=
        if supported : bool
        then [__init__ api device_config description]
        else [] in
      entities <- sensors_of api device_config rest ;;
      Return (created ++ entities)%list
  end.

Definition _build_entities_for_device (device : Handle)
    (device_config : PyViCareDeviceConfig)
    : Result (list ViCareBinarySensor) :=
  sensors_of device device_config GLOBAL_SENSORS.

Fixpoint _build_entities_for_component (components : list Handle)
    (device_config : PyViCareDeviceConfig)
    (entity_descriptions : list ViCareBinarySensorEntityDescription)
    : Result (list ViCareBinarySensor) :=
  match components with
  | [] => Return []
  | component :: rest =>
      here <- sensors_of component device_config entity_descriptions ;;
      there <- _build_entities_for_component rest device_config
                 entity_descriptions ;;
      Return (here ++ there)%list
  end.

Definition _build_entities (device : Handle)
    (device_config : PyViCareDeviceConfig)
    : Result (list ViCareBinarySensor) :=
  entities <- _build_entities_for_device device device_config ;;
  circuits <- get_circuits device ;;
  of_circuits <- _build_entities_for_component circuits device_config
                   CIRCUIT_SENSORS ;;
  let entities := (entities ++ of_circuits)%list in
  burners <- get_burners device ;;
  of_burners <- _build_entities_for_component burners device_config
                  BURNER_SENSORS ;;
  let entities := (entities ++ of_burners)%list in
  compressors <- get_compressors device ;;
  of_compressors <- _build_entities_for_component compressors device_config
                      COMPRESSOR_SENSORS ;;
  let entities := (entities ++ of_compressors)%list in
  Return entities.

End Builder.

(** The helpers of utils.py. *)
Module utils.

(** Modelled from the spec: [is_supported] of utils.py, which is not
    among the sources.  The vendor client offers a supported-feature
    probe that raises a distinguished error when a feature is absent on a
    device or component; the builder filters by that probe, and an
    unsupported feature is excluded at setup rather than surfaced.  So
    the distinguished error becomes the answer false; nothing is said
    about other errors, which therefore travel on as Python errors do. *)
Definition is_supported
    (probe : string -> ViCareBinarySensorEntityDescription -> Handle
             -> Result bool)
    (name : string)
    (entity_description : ViCareBinarySensorEntityDescription)
    (vicare_device : Handle) : Result bool :=
  match probe name entity_description vicare_device with
  | Return supported => Return supported
  | Raise PyViCareNotSupportedFeatureError => Return false
  | Raise e => Raise e
  end.

(** Modelled from the spec: the probe itself belongs to the vendor client
    and is a read-only query against it.  This one asks by calling the
    descriptor's own getter on the object: an answer of any value means
    the feature is there, and the getter's error is the probe's error. *)
Definition getter_probe (cloud : Cloud) (name : string)
    (entity_description : ViCareBinarySensorEntityDescription)
    (vicare_device : Handle) : Result bool :=
  _ <- value_getter entity_description (cloud vicare_device) ;;
  Return true.

End utils.

(** ** The builder without failures *)

(** What the comprehension yields once every probe has answered: the
    descriptors the probe accepts, each bound to the object. *)
Definition accepted (sup : string -> ViCareBinarySensorEntityDescription
                            -> Handle -> bool)
    (api : Handle) (device_config : PyViCareDeviceConfig)
    (entity_descriptions : list ViCareBinarySensorEntityDescription)
    : list ViCareBinarySensor :=
  map (__init__ api device_config)
      (filter (fun description => sup (key description) description api)
              entity_descriptions).

Definition accepted_of_components
    (sup : string -> ViCareBinarySensorEntityDescription -> Handle -> bool)
    (components : list Handle) (device_config : PyViCareDeviceConfig)
    (entity_descriptions : list ViCareBinarySensorEntityDescription)
    : list ViCareBinarySensor :=
  flat_map (fun component =>
              accepted sup component device_config entity_descriptions)
           components.

(** ** Sample devices *)

Definition sample_config : PyViCareDeviceConfig :=
  mkDeviceConfig "7571381573112225".

Definition sample_solar_pump : ViCareBinarySensorEntityDescription :=
  mkDescription "solar_pump_active" (Some "solar_pump") (Some "mdi:pump")
    (Some RUNNING) (fun api => api getSolarPumpActive).

(** A vendor client whose device has no solar pump. *)
Definition sample_cloud_no_solar : Cloud :=
  fun _ getter =>
    match getter with
    | getSolarPumpActive => Raise PyViCareNotSupportedFeatureError
    | _ => Return (Some false)
    end.


Definition sample_is_supported :
    string -> ViCareBinarySensorEntityDescription -> Handle -> Result bool :=
  utils.is_supported (utils.getter_probe sample_cloud_no_solar).

(** Device 0 has the single circuit 1, and no burner or compressor. *)
Definition sample_get_circuits : Handle -> Result (list Handle) :=
  fun _ => Return [1].

Definition sample_no_components : Handle -> Result (list Handle) :=
  fun _ => Return [].

(** A vendor client that cannot be reached. *)
Definition probe_offline :
    string -> ViCareBinarySensorEntityDescription -> Handle -> Result bool :=
  fun _ _ _ => Raise RequestsConnectionError.

Definition enumeration_offline : Handle -> Result (list Handle) :=
  fun _ => Raise RequestsConnectionError.

(** Moments of the vendor client: every getter answers true; the rate
    limit is exhausted; no feature is supported. *)
Definition sample_cloud_running : Cloud :=
  fun _ _ => Return (Some true).

Definition sample_cloud_rate_limited : Cloud :=
  fun _ _ => Raise (PyViCareRateLimitError "API_RATE_LIMIT").

Definition sample_cloud_unsupported : Cloud :=
  fun _ _ => Raise PyViCareNotSupportedFeatureError.

Definition sample_burner : ViCareBinarySensorEntityDescription :=
  mkDescription "burner_active" (Some "burner") (Some "mdi:gas-burner")
    (Some RUNNING) (fun api => api getActive).

(** A burner sensor that was polled before and is on, and a new one. *)
Definition sample_sensor : ViCareBinarySensor :=
  mkSensor 7 sample_config sample_burner (Some true).

Definition sample_sensor_unknown : ViCareBinarySensor :=
  __init__ 7 sample_config sample_burner.

(** What the probe of [sample_is_supported] answers, as a boolean. *)
Definition sample_sup :
    string -> ViCareBinarySensorEntityDescription -> Handle -> bool :=
  fun _ description api =>
    match value_getter description (sample_cloud_no_solar api) with
    | Return _ => true
    | Raise _ => false
    end.

(** ** Classes of accessor failures *)

(** The errors [update] answers with a log line. *)
Definition is_logged_error (e : PyException) : bool :=
  match e with
  | RequestsConnectionError
  | ValueError
  | PyViCareRateLimitError _
  | PyViCareInvalidDataError _ => true
  | _ => false
  end.

(** The errors [update] catches, with or without a log line. *)
Definition is_handled_error (e : PyException) : bool :=
  match e with
  | PyViCareNotSupportedFeatureError => true
  | _ => is_logged_error e
  end.

(** An accessor that keeps to its contract at one call: it returns a
    boolean, never [None], or raises an error [update] catches. *)
Definition well_behaved (r : Result PyBool) : Prop :=
  match r with
  | Return v => v <> None
  | Raise e => is_handled_error e = true
  end.

(** What the descriptor's accessor does for a sensor at one moment. *)
Definition accessor_call (cloud : Cloud) (self : ViCareBinarySensor)
    : Result PyBool :=
  value_getter (entity_description self) (cloud (_api self)).

(** ** The order in which a setup asks *)

(** The probe answers, true or false, on every descriptor of the table at
    this object. *)
Definition probe_answers
    (is_supported : string -> ViCareBinarySensorEntityDescription -> Handle
                    -> Result bool)
    (api : Handle)
    (descriptions : list ViCareBinarySensorEntityDescription) : Prop :=
  forall d, In d descriptions ->
    exists b, is_supported (key d) d api = Return b.

(** The probe answers on every descriptor of the table at each of the
    components. *)
Definition all_answer
    (is_supported : string -> ViCareBinarySensorEntityDescription -> Handle
                    -> Result bool)
    (components : list Handle)
    (descriptions : list ViCareBinarySensorEntityDescription) : Prop :=
  forall c, In c components -> probe_answers is_supported c descriptions.

(** Going through the table at this object, the first probe that does not
    answer raises [e]. *)
Definition probe_raises_first
    (is_supported : string -> ViCareBinarySensorEntityDescription -> Handle
                    -> Result bool)
    (api : Handle)
    (descriptions : list ViCareBinarySensorEntityDescription)
    (e : PyException) : Prop :=
  exists earlier d later,
    descriptions = (earlier ++ d :: later)%list
    /\ probe_answers is_supported api earlier
    /\ is_supported (key d) d api = Raise e.

(** Going through the components in order, and through the table at each,
    the first probe that does not answer raises [e]. *)
Definition component_probe_raises_first
    (is_supported : string -> ViCareBinarySensorEntityDescription -> Handle
                    -> Result bool)
    (components : list Handle)
    (descriptions : list ViCareBinarySensorEntityDescription)
    (e : PyException) : Prop :=
  exists done c todo,
    components = (done ++ c :: todo)%list
    /\ all_answer is_supported done descriptions
    /\ probe_raises_first is_supported c descriptions e.

(** One line of [_build_entities] enumerates the components of a kind and
    builds their sensors.  It passes when the enumeration returns and the
    probe answers on every component; it raises [e] when the enumeration
    raises [e], or returns and the first probe that does not answer raises
    [e]. *)
Definition stage_passes
    (is_supported : string -> ViCareBinarySensorEntityDescription -> Handle
                    -> Result bool)
    (enumerate : Handle -> Result (list Handle)) (device : Handle)
    (descriptions : list ViCareBinarySensorEntityDescription) : Prop :=
  exists components,
    enumerate device = Return components
    /\ all_answer is_supported components descriptions.

Definition stage_raises
    (is_supported : string -> ViCareBinarySensorEntityDescription -> Handle
                    -> Result bool)
    (enumerate : Handle -> Result (list Handle)) (device : Handle)
    (descriptions : list ViCareBinarySensorEntityDescription)
    (e : PyException) : Prop :=
  enumerate device = Raise e
  \/ exists components,
       enumerate device = Return components
       /\ component_probe_raises_first is_supported components descriptions e.

(** ** Vocabulary of the further properties *)

(** The four [except] clauses of [update], in their order. *)
Inductive Handler : Type :=
| ConnectionHandler
| DecodingHandler
| RateLimitHandler
| InvalidDataHandler.

(** The clause of [update] that catches an error, if one does. *)
Definition handler_of (e : PyException) : option Handler :=
  match e with
  | RequestsConnectionError => Some ConnectionHandler
  | ValueError => Some DecodingHandler
  | PyViCareRateLimitError _ => Some RateLimitHandler
  | PyViCareInvalidDataError _ => Some InvalidDataHandler
  | _ => None
  end.

(** The error text a clause puts into its log line: the rate-limit and the
    invalid-data clauses interpolate it, the other two log a constant. *)
Definition interpolated_text (e : PyException) : option string :=
  match e with
  | PyViCareRateLimitError text => Some text
  | PyViCareInvalidDataError text => Some text
  | _ => None
  end.

(** The accessor raised at this call, whatever the error. *)
Definition accessor_raised (cloud : Cloud) (self : ViCareBinarySensor) : Prop :=
  exists e, accessor_call cloud self = Raise e.

(** What tells two sensors of one setup apart: the object a sensor is bound
    to and the key of its descriptor. *)
Definition identity (self : ViCareBinarySensor) : Handle * string :=
  (_api self, key (entity_description self)).

(** The probe's answer read as a boolean: true when it returned true. *)
Definition answered_true
    (is_supported : string -> ViCareBinarySensorEntityDescription -> Handle
                    -> Result bool)
    (name : string) (description : ViCareBinarySensorEntityDescription)
    (api : Handle) : bool :=
  match is_supported name description api with
  | Return supported => supported
  | Raise _ => false
  end.

(** The questions a setup puts to the probe: the device with the global
    descriptors, and each component with the descriptors of its kind. *)
Definition in_scope (device : Handle)
    (circuits burners compressors : list Handle)
    (api : Handle) (description : ViCareBinarySensorEntityDescription)
    : Prop :=
  (api = device /\ In description GLOBAL_SENSORS)
  \/ (In api circuits /\ In description CIRCUIT_SENSORS)
  \/ (In api burners /\ In description BURNER_SENSORS)
  \/ (In api compressors /\ In description COMPRESSOR_SENSORS).

(** No string of the first list is in the second. *)
Definition keys_apart (ks ks' : list string) : bool :=
  forallb (fun k => negb (existsb (String.eqb k) ks')) ks.

(** Further moments of the vendor client: it cannot be reached; its
    objects lack the getter; the getter answers [None]. *)
Definition sample_cloud_offline : Cloud :=
  fun _ _ => Raise RequestsConnectionError.

Definition sample_cloud_broken : Cloud :=
  fun _ _ => Raise AttributeError.

Definition sample_cloud_none : Cloud :=
  fun _ _ => Return None.

Definition sample_cloud_stopped : Cloud :=
  fun _ _ => Return (Some false).


Definition probe_frost_offline :
    string -> ViCareBinarySensorEntityDescription -> Handle -> Result bool :=
  fun name _ _ =>
    if String.eqb name "frost_protection_active"
    then Raise RequestsConnectionError
    else Return true.


(** The sensors the sample setup makes for device 0 with its circuit 1:
    all of the device's but the solar pump, and both of the circuit's. *)
Definition sample_entities : list ViCareBinarySensor :=
  (accepted sample_sup 0 sample_config GLOBAL_SENSORS
   ++ accepted_of_components sample_sup [1] sample_config CIRCUIT_SENSORS)%list.

(** * Properties of the polled sensor *)

(** Splits a goal about [update] by what the accessor did. *)
Ltac by_accessor cloud self :=
  unfold update, update_suppressed, accessor_call in *;
  destruct (value_getter (entity_description self) (cloud (_api self)))
    as [v | e]; [ | destruct e ]; simpl in *.

(** [update] is decided by the accessor's outcome alone. *)
Lemma update_returned cloud self v :
  accessor_call cloud self = Return v ->
  update cloud self = mkEffect (set_attr_is_on v self) [] (Return tt).
Proof.
  unfold update, update_suppressed, accessor_call.
  intros ->. reflexivity.
Qed.

Lemma update_raised_state cloud self e :
  accessor_call cloud self = Raise e ->
  after (update cloud self) = self.
Proof.
  unfold update, update_suppressed, accessor_call.
  intros ->. destruct e; reflexivity.
Qed.

Lemma update_escapes cloud self e :
  accessor_call cloud self = Raise e ->
  is_handled_error e = false ->
  update cloud self = mkEffect self [] (Raise e).
Proof.
  unfold update, update_suppressed, accessor_call.
  intros -> Hno. destruct e; simpl in Hno; try discriminate; reflexivity.
Qed.

(** The frame of [update]: only the state cell can differ. *)
Lemma update_frame cloud self :
  after (update cloud self)
  = set_attr_is_on (_attr_is_on (after (update cloud self))) self.
Proof.
  by_accessor cloud self; destruct self; reflexivity.
Qed.

Lemma accessor_call_after cloud cloud' self :
  accessor_call cloud' (after (update cloud self)) = accessor_call cloud' self.
Proof.
  unfold accessor_call. rewrite (update_frame cloud self). reflexivity.
Qed.

(** A single poll keeps a present value present when the accessor keeps to
    its contract. *)
Lemma update_keeps_available cloud self :
  well_behaved (accessor_call cloud self) ->
  available self = true ->
  available (after (update cloud self)) = true.
Proof.
  intros Hwb Hav.
  by_accessor cloud self; try assumption; try discriminate.
  unfold available; simpl. destruct v; [reflexivity | contradiction].
Qed.

(** The contract matters: an accessor that returns [None] empties the
    cell. *)
Lemma update_None_unavailable cloud self :
  accessor_call cloud self = Return None ->
  available (after (update cloud self)) = false.
Proof.
  intros H. rewrite (update_returned _ _ _ H). reflexivity.
Qed.

(** C1: whatever the sensor and whatever its state cell holds, when the
    descriptor's accessor raises a connection error, a decoding error
    (ValueError), a rate-limit error or an invalid-data error during a
    poll, the sensor is left exactly as it was, exactly one record is
    logged, at level ERROR, and the poll returns normally. *)
Theorem update_logged_error_keeps_state :
  forall (cloud : Cloud) (self : ViCareBinarySensor) (e : PyException),
    accessor_call cloud self = Raise e ->
    is_logged_error e = true ->
    after (update cloud self) = self
    /\ _attr_is_on (after (update cloud self)) = _attr_is_on self
    /\ (exists msg, logged (update cloud self) = [mkLogRecord ERROR msg])
    /\ outcome (update cloud self) = Return tt.
Proof.
  intros cloud self e Hcall Hlog.
  unfold update, update_suppressed, accessor_call in *.
  rewrite Hcall.
  destruct e; simpl in Hlog; try discriminate; simpl;
    repeat split; eexists; reflexivity.
Qed.

Lemma update_logged_error_keeps_state_witness :
  after (update sample_cloud_rate_limited sample_sensor) = sample_sensor
  /\ _attr_is_on (after (update sample_cloud_rate_limited sample_sensor))
     = Some true
  /\ (exists msg,
        logged (update sample_cloud_rate_limited sample_sensor)
        = [mkLogRecord ERROR msg])
  /\ outcome (update sample_cloud_rate_limited sample_sensor) = Return tt.
Proof.
  apply (@update_logged_error_keeps_state sample_cloud_rate_limited
           sample_sensor (PyViCareRateLimitError "API_RATE_LIMIT"));
    reflexivity.
Defined.

(** C2: whatever the sensor and whatever its state cell holds, absent
    included, when the descriptor's accessor raises the not-supported error
    during a poll, the sensor is left exactly as it was, nothing is logged
    and the poll returns normally. *)
Theorem update_not_supported_silent :
  forall (cloud : Cloud) (self : ViCareBinarySensor),
    accessor_call cloud self = Raise PyViCareNotSupportedFeatureError ->
    update cloud self = mkEffect self [] (Return tt).
Proof.
  intros cloud self Hcall.
  unfold update, update_suppressed, accessor_call in *.
  rewrite Hcall. reflexivity.
Qed.

Lemma update_not_supported_silent_witness :
  update sample_cloud_unsupported sample_sensor_unknown
  = mkEffect sample_sensor_unknown [] (Return tt).
Proof.
  apply (@update_not_supported_silent sample_cloud_unsupported
           sample_sensor_unknown).
  reflexivity.
Defined.

(** C3: when the descriptor's accessor returns a boolean, the poll sets the
    state cell to exactly that boolean, logs nothing and returns normally;
    in particular, after the accessor returned true the state is on and the
    sensor is available. *)
Theorem update_sets_returned_boolean :
  forall (cloud : Cloud) (self : ViCareBinarySensor) (b : bool),
    accessor_call cloud self = Return (Some b) ->
    update cloud self = mkEffect (set_attr_is_on (Some b) self) [] (Return tt)
    /\ _attr_is_on (after (update cloud self)) = Some b
    /\ (b = true ->
        _attr_is_on (after (update cloud self)) = Some true
        /\ available (after (update cloud self)) = true).
Proof.
  intros cloud self b Hcall.
  rewrite (update_returned _ _ _ Hcall). simpl.
  split; [reflexivity | split; [reflexivity | ]].
  intros ->. split; reflexivity.
Qed.

Lemma update_sets_returned_boolean_witness :
  update sample_cloud_running sample_sensor_unknown
  = mkEffect (set_attr_is_on (Some true) sample_sensor_unknown) [] (Return tt)
  /\ _attr_is_on (after (update sample_cloud_running sample_sensor_unknown))
     = Some true
  /\ (true = true ->
      _attr_is_on (after (update sample_cloud_running sample_sensor_unknown))
      = Some true
      /\ available (after (update sample_cloud_running sample_sensor_unknown))
         = true).
Proof.
  apply (@update_sets_returned_boolean sample_cloud_running
           sample_sensor_unknown true).
  reflexivity.
Defined.

(** C4: whatever the sensor and whatever its state cell holds, [available]
    is true exactly when the state cell holds a value, that is, when it is
    not absent. *)
Theorem available_iff_present :
  forall self : ViCareBinarySensor,
    (available self = true <-> _attr_is_on self <> None)
    /\ (available self = true <-> exists b, _attr_is_on self = Some b)
    /\ (available self = false <-> _attr_is_on self = None).
Proof.
  intros self. unfold available.
  destruct (_attr_is_on self) as [b | ].
  - repeat split; intros; try discriminate; try reflexivity; eauto.
  - repeat split; intros H; try reflexivity; try discriminate.
    + contradiction H; reflexivity.
    + destruct H as [b H]; discriminate.
Qed.

(** C7: with an accessor that behaves the same at both calls, returning the
    same value or raising the same error, a second poll changes nothing the
    first poll left: the sensor after the second poll is the sensor after
    the first, and the second poll logs and ends as the first did. *)
Theorem update_idempotent :
  forall (cloud cloud' : Cloud) (self : ViCareBinarySensor),
    accessor_call cloud' self = accessor_call cloud self ->
    after (update cloud' (after (update cloud self)))
    = after (update cloud self)
    /\ _attr_is_on (after (update cloud' (after (update cloud self))))
       = _attr_is_on (after (update cloud self))
    /\ logged (update cloud' (after (update cloud self)))
       = logged (update cloud self)
    /\ outcome (update cloud' (after (update cloud self)))
       = outcome (update cloud self).
Proof.
  intros cloud cloud' self Hsame.
  assert (Hcall : accessor_call cloud' (after (update cloud self))
                  = accessor_call cloud self)
    by (rewrite accessor_call_after; exact Hsame).
  assert (Hall : update cloud' (after (update cloud self))
                 = update cloud self).
  { destruct (accessor_call cloud self) as [v | e] eqn:Hfirst.
    - rewrite (update_returned _ _ _ Hcall).
      rewrite (update_returned _ _ _ Hfirst). reflexivity.
    - pose proof (update_raised_state _ _ _ Hfirst) as Hstay.
      rewrite Hstay in *.
      unfold update, update_suppressed, accessor_call in *.
      rewrite Hsame, Hfirst. reflexivity. }
  rewrite Hall. repeat split; reflexivity.
Qed.

Lemma update_idempotent_witness :
  after (update sample_cloud_running
           (after (update sample_cloud_running sample_sensor_unknown)))
  = after (update sample_cloud_running sample_sensor_unknown)
  /\ _attr_is_on
       (after (update sample_cloud_running
                 (after (update sample_cloud_running sample_sensor_unknown))))
     = _attr_is_on (after (update sample_cloud_running sample_sensor_unknown))
  /\ logged (update sample_cloud_running
               (after (update sample_cloud_running sample_sensor_unknown)))
     = logged (update sample_cloud_running sample_sensor_unknown)
  /\ outcome (update sample_cloud_running
                (after (update sample_cloud_running sample_sensor_unknown)))
     = outcome (update sample_cloud_running sample_sensor_unknown).
Proof.
  apply (@update_idempotent sample_cloud_running sample_cloud_running
           sample_sensor_unknown).
  reflexivity.
Defined.

(** Over a run of polls the bound object and the descriptor stay what the
    constructor made them. *)
Lemma polls_frame clouds : forall self,
  polls clouds self = set_attr_is_on (_attr_is_on (polls clouds self)) self.
Proof.
  induction clouds as [ | cloud later IH]; intros self; simpl.
  - destruct self; reflexivity.
  - rewrite (IH (after (update cloud self))) at 1.
    rewrite (update_frame cloud self) at 2. reflexivity.
Qed.

(** C9: for an accessor that at every poll either returns a boolean (never
    [None]) or raises one of the handled errors (not-supported, connection,
    decoding, rate-limit, invalid-data), availability is monotone: once
    [available] is true it is true after any further run of polls, since no
    poll resets a present state cell to absent. *)
Theorem availability_monotone :
  forall (clouds : list Cloud) (self : ViCareBinarySensor),
    Forall (fun cloud => well_behaved (accessor_call cloud self)) clouds ->
    available self = true ->
    available (polls clouds self) = true
    /\ _attr_is_on (polls clouds self) <> None.
Proof.
  intros clouds self Hwb Hav.
  assert (Hgoal : available (polls clouds self) = true).
  { revert self Hwb Hav.
    induction clouds as [ | cloud later IH]; intros self Hwb Hav; simpl.
    - exact Hav.
    - inversion Hwb as [ | c l Hnow Hlater]; subst.
      apply IH.
      + apply Forall_forall. intros c Hin.
        rewrite accessor_call_after.
        exact (proj1 (Forall_forall _ _) Hlater c Hin).
      + apply update_keeps_available; assumption. }
  split; [exact Hgoal | ].
  unfold available in Hgoal.
  destruct (_attr_is_on (polls clouds self)); [discriminate | discriminate].
Qed.

Lemma availability_monotone_witness :
  available
    (polls [sample_cloud_rate_limited; sample_cloud_unsupported;
            sample_cloud_running] sample_sensor) = true
  /\ _attr_is_on
       (polls [sample_cloud_rate_limited; sample_cloud_unsupported;
               sample_cloud_running] sample_sensor) <> None.
Proof.
  apply (@availability_monotone
           [sample_cloud_rate_limited; sample_cloud_unsupported;
            sample_cloud_running] sample_sensor).
  - repeat constructor; simpl; discriminate.
  - reflexivity.
Defined.

(** C10: a poll changes at most the state cell.  The bound device or
    component, the device configuration and the entity description with its
    key, icon, translation key, device class and accessor are after the
    poll what they were before it, whether the accessor returned or raised;
    the same holds after any run of polls. *)
Theorem update_changes_only_state_cell :
  forall (cloud : Cloud) (clouds : list Cloud) (self : ViCareBinarySensor),
    (after (update cloud self)
     = set_attr_is_on (_attr_is_on (after (update cloud self))) self
     /\ _api (after (update cloud self)) = _api self
     /\ _device_config (after (update cloud self)) = _device_config self
     /\ entity_description (after (update cloud self))
        = entity_description self
     /\ key (entity_description (after (update cloud self)))
        = key (entity_description self)
     /\ icon (entity_description (after (update cloud self)))
        = icon (entity_description self)
     /\ translation_key (entity_description (after (update cloud self)))
        = translation_key (entity_description self)
     /\ device_class (entity_description (after (update cloud self)))
        = device_class (entity_description self)
     /\ value_getter (entity_description (after (update cloud self)))
        = value_getter (entity_description self))
    /\ _api (polls clouds self) = _api self
    /\ _device_config (polls clouds self) = _device_config self
    /\ entity_description (polls clouds self) = entity_description self.
Proof.
  intros cloud clouds self. split.
  - pose proof (update_frame cloud self) as Hframe.
    split; [exact Hframe | ].
    rewrite Hframe. simpl. repeat split; reflexivity.
  - rewrite (polls_frame clouds self). simpl. repeat split; reflexivity.
Qed.

(** * Properties of the entity builder *)

Lemma bind_Return_inv (A B : Type) (r : Result A) (k : A -> Result B) b :
  bind r k = Return b -> exists a, r = Return a /\ k a = Return b.
Proof.
  destruct r as [a | e]; simpl; intros H; [eauto | discriminate].
Qed.

Lemma bind_Raise_inv (A B : Type) (r : Result A) (k : A -> Result B) e :
  bind r k = Raise e ->
  r = Raise e \/ exists a, r = Return a /\ k a = Raise e.
Proof.
  destruct r as [a | e']; simpl; intros H;
    [right; eauto | left; injection H as ->; reflexivity].
Qed.


Lemma GLOBAL_SENSORS_keys_distinct : NoDup (map key GLOBAL_SENSORS).
Proof.
  simpl. repeat constructor; simpl; intuition discriminate.
Qed.

Section BuilderFacts.

Variable is_supported :
  string -> ViCareBinarySensorEntityDescription -> Handle -> Result bool.



(** When every probe answers, the comprehension returns the accepted
    descriptors. *)
Lemma sensors_of_total sup api device_config descriptions :
  (forall d, In d descriptions ->
     is_supported (key d) d api = Return (sup (key d) d api)) ->
  sensors_of is_supported api device_config descriptions
  = Return (accepted sup api device_config descriptions).
Proof.
  unfold accepted.
  induction descriptions as [ | d rest IH]; simpl; intros Hsup.
  - reflexivity.
  - rewrite (Hsup d (or_introl eq_refl)). simpl.
    rewrite IH by (intros d' Hd'; apply Hsup; right; exact Hd'). simpl.
    destruct (sup (key d) d api); reflexivity.
Qed.

Lemma _build_entities_for_component_total sup components device_config
    descriptions :
  (forall component d, In component components -> In d descriptions ->
     is_supported (key d) d component = Return (sup (key d) d component)) ->
  _build_entities_for_component is_supported components device_config
    descriptions
  = Return (accepted_of_components sup components device_config
              descriptions).
Proof.
  unfold accepted_of_components.
  induction components as [ | c rest IH]; simpl; intros Hsup.
  - reflexivity.
  - rewrite (sensors_of_total sup)
      by (intros d Hd; apply Hsup; [left; reflexivity | exact Hd]).
    simpl.
    rewrite IH
      by (intros c' d Hc' Hd; apply Hsup; [right; exact Hc' | exact Hd]).
    reflexivity.
Qed.

(** An error that leaves a comprehension was raised by the probe. *)
Lemma sensors_of_Raise api device_config descriptions e :
  sensors_of is_supported api device_config descriptions = Raise e ->
  exists d, In d descriptions /\ is_supported (key d) d api = Raise e.
Proof.
  induction descriptions as [ | d rest IH]; simpl; intros Hrun.
  - discriminate.
  - apply bind_Raise_inv in Hrun as [Hprobe | [supported [Hprobe Hrun]]].
    + exists d. auto.
    + apply bind_Raise_inv in Hrun as [Htail | [tail [_ Hrun]]];
        [ | discriminate].
      destruct (IH Htail) as [d' [Hd' Hraise]].
      exists d'. auto.
Qed.

Lemma _build_entities_for_component_Raise components device_config
    descriptions e :
  _build_entities_for_component is_supported components device_config
    descriptions = Raise e ->
  exists component d,
    In component components /\ In d descriptions
    /\ is_supported (key d) d component = Raise e.
Proof.
  induction components as [ | c rest IH]; simpl; intros Hrun.
  - discriminate.
  - apply bind_Raise_inv in Hrun as [Hhere | [here [_ Hrun]]].
    + destruct (sensors_of_Raise _ _ _ _ Hhere) as [d [Hd Hraise]].
      exists c, d. auto.
    + apply bind_Raise_inv in Hrun as [Hthere | [there [_ Hrun]]];
        [ | discriminate].
      destruct (IH Hthere) as [c' [d [Hc' [Hd Hraise]]]].
      exists c', d. auto.
Qed.

End BuilderFacts.







(** Only what the probe accepted is among the accepted. *)
Lemma accepted_In sup api device_config descriptions s :
  In s (accepted sup api device_config descriptions) ->
  In (entity_description s) descriptions
  /\ _api s = api
  /\ sup (key (entity_description s)) (entity_description s) (_api s) = true.
Proof.
  unfold accepted. intros Hin.
  apply in_map_iff in Hin as [d [<- Hd]].
  apply filter_In in Hd as [Hd Hsup]. simpl. auto.
Qed.

Lemma accepted_of_components_In sup components device_config descriptions s :
  In s (accepted_of_components sup components device_config descriptions) ->
  In (entity_description s) descriptions
  /\ In (_api s) components
  /\ sup (key (entity_description s)) (entity_description s) (_api s) = true.
Proof.
  unfold accepted_of_components. intros Hin.
  apply in_flat_map in Hin as [c [Hc Hin]].
  apply accepted_In in Hin as [Hd [Hapi Hsup]].
  rewrite Hapi in Hsup |- *. auto.
Qed.

(** A comprehension returns exactly when the probe answers on the whole
    table, and raises exactly the error of the first probe that raises. *)
Lemma sensors_of_Return_iff is_supported api device_config descriptions :
  (exists entities,
     sensors_of is_supported api device_config descriptions = Return entities)
  <-> probe_answers is_supported api descriptions.
Proof.
  unfold probe_answers.
  induction descriptions as [ | d rest IH]; simpl.
  - split; [intros _ d [] | eauto].
  - split.
    + intros [entities Hrun] d' [<- | Hd'].
      * apply bind_Return_inv in Hrun as [b [Hb _]]. eauto.
      * apply bind_Return_inv in Hrun as [b [_ Hrun]].
        apply bind_Return_inv in Hrun as [tail [Htail _]].
        apply (proj1 IH); eauto.
    + intros Hall.
      destruct (Hall d (or_introl eq_refl)) as [b ->].
      destruct (proj2 IH) as [tail ->];
        [intros d' Hd'; apply Hall; right; exact Hd' | ].
      simpl. eauto.
Qed.

Lemma sensors_of_Raise_iff is_supported api device_config descriptions e :
  sensors_of is_supported api device_config descriptions = Raise e
  <-> probe_raises_first is_supported api descriptions e.
Proof.
  unfold probe_raises_first, probe_answers. split.
  - revert e. induction descriptions as [ | d rest IH]; simpl; intros e Hrun.
    + discriminate.
    + apply bind_Raise_inv in Hrun as [Hprobe | [b [Hprobe Hrun]]].
      * exists [], d, rest. repeat split; [intros d' [] | exact Hprobe].
      * apply bind_Raise_inv in Hrun as [Htail | [tail [_ Hrun]]];
          [ | discriminate].
        destruct (IH _ Htail) as [earlier [d1 [later [-> [Hans Hraise]]]]].
        exists (d :: earlier), d1, later. repeat split; [ | exact Hraise].
        intros d' [<- | Hd']; [eauto | apply Hans; exact Hd'].
  - intros [earlier [d [later [-> [Hans Hraise]]]]].
    induction earlier as [ | d0 rest IH]; simpl.
    + rewrite Hraise. reflexivity.
    + destruct (Hans d0 (or_introl eq_refl)) as [b ->]. simpl.
      rewrite IH; [reflexivity | ].
      intros d' Hd'. apply Hans. right. exact Hd'.
Qed.

Lemma _build_entities_for_component_Return_iff is_supported components
    device_config descriptions :
  (exists entities,
     _build_entities_for_component is_supported components device_config
       descriptions = Return entities)
  <-> all_answer is_supported components descriptions.
Proof.
  unfold all_answer.
  induction components as [ | c rest IH]; simpl.
  - split; [intros _ c [] | eauto].
  - split.
    + intros [entities Hrun] c' [<- | Hc'].
      * apply bind_Return_inv in Hrun as [here [Hhere _]].
        apply (proj1 (sensors_of_Return_iff _ _ device_config _)). eauto.
      * apply bind_Return_inv in Hrun as [here [_ Hrun]].
        apply bind_Return_inv in Hrun as [there [Hthere _]].
        apply (proj1 IH); eauto.
    + intros Hall.
      destruct (proj2 (sensors_of_Return_iff is_supported c device_config
                         descriptions)) as [here ->];
        [apply Hall; left; reflexivity | ].
      destruct (proj2 IH) as [there ->];
        [intros c' Hc'; apply Hall; right; exact Hc' | ].
      simpl. eauto.
Qed.

Lemma _build_entities_for_component_Raise_iff is_supported components
    device_config descriptions e :
  _build_entities_for_component is_supported components device_config
    descriptions = Raise e
  <-> component_probe_raises_first is_supported components descriptions e.
Proof.
  unfold component_probe_raises_first, all_answer. split.
  - revert e. induction components as [ | c rest IH]; simpl; intros e Hrun.
    + discriminate.
    + apply bind_Raise_inv in Hrun as [Hhere | [here [Hhere Hrun]]].
      * exists [], c, rest. repeat split; [intros c' [] | ].
        apply (proj1 (sensors_of_Raise_iff _ _ device_config _ _)).
        exact Hhere.
      * apply bind_Raise_inv in Hrun as [Hthere | [there [_ Hrun]]];
          [ | discriminate].
        destruct (IH _ Hthere) as [done [c1 [todo [-> [Hans Hraise]]]]].
        exists (c :: done), c1, todo. repeat split; [ | exact Hraise].
        intros c' [<- | Hc']; [ | apply Hans; exact Hc'].
        apply (proj1 (sensors_of_Return_iff _ _ device_config _)). eauto.
  - intros [done [c [todo [-> [Hans Hraise]]]]].
    induction done as [ | c0 rest IH]; simpl.
    + rewrite (proj2 (sensors_of_Raise_iff _ _ device_config _ _) Hraise).
      reflexivity.
    + destruct (proj2 (sensors_of_Return_iff is_supported c0 device_config
                         descriptions)) as [here ->];
        [apply Hans; left; reflexivity | ].
      simpl. rewrite IH; [reflexivity | ].
      intros c' Hc'. apply Hans. right. exact Hc'.
Qed.

(** C8, as the claim states it, fails: [_build_entities] has no handler,
    so a connection error raised by the supported-feature probe, or by a
    component enumeration, leaves the builder. *)
Lemma _build_entities_lets_errors_escape :
  _build_entities probe_offline sample_no_components sample_no_components
    sample_no_components 0 sample_config = Raise RequestsConnectionError
  /\ _build_entities (fun _ _ _ => Return false) enumeration_offline
       sample_no_components sample_no_components 0 sample_config
     = Raise RequestsConnectionError
  /\ ~ (forall is_supported get_circuits get_burners get_compressors
               device device_config,
          exists entities,
            _build_entities is_supported get_circuits get_burners
              get_compressors device device_config = Return entities).
Proof.
  split; [reflexivity | split; [reflexivity | ]].
  intros Hnever.
  destruct (Hnever probe_offline sample_no_components sample_no_components
              sample_no_components 0 sample_config) as [entities Hrun].
  discriminate Hrun.
Qed.

(** C8, amended: [_build_entities] raises nothing of its own and catches
    nothing.  When the supported-feature probe returns a boolean for every
    descriptor and object the builder asks about and each of the three
    component enumerations returns a list, [_build_entities] returns a
    list: the sensors of the pairs the probe accepted, in the order device,
    circuits, burners, compressors, so that unsupported features are left
    out rather than raised.  When [_build_entities] does raise, the error
    is one that the probe or an enumeration raised.  And it raises [e]
    exactly when the first call that raises, in the order device probes,
    circuit enumeration, circuit probes, burner enumeration, burner probes,
    compressor enumeration, compressor probes, raises [e]: an error of the
    probe or of an enumeration always leaves the builder. *)
Theorem _build_entities_raises_nothing_of_its_own :
  forall (is_supported :
            string -> ViCareBinarySensorEntityDescription -> Handle
            -> Result bool)
         (get_circuits get_burners get_compressors :
            Handle -> Result (list Handle))
         (device : Handle) (device_config : PyViCareDeviceConfig),
    (forall (sup : string -> ViCareBinarySensorEntityDescription -> Handle
                   -> bool)
            (circuits burners compressors : list Handle),
       (forall d, In d GLOBAL_SENSORS ->
          is_supported (key d) d device = Return (sup (key d) d device)) ->
       get_circuits device = Return circuits ->
       (forall c d, In c circuits -> In d CIRCUIT_SENSORS ->
          is_supported (key d) d c = Return (sup (key d) d c)) ->
       get_burners device = Return burners ->
       (forall c d, In c burners -> In d BURNER_SENSORS ->
          is_supported (key d) d c = Return (sup (key d) d c)) ->
       get_compressors device = Return compressors ->
       (forall c d, In c compressors -> In d COMPRESSOR_SENSORS ->
          is_supported (key d) d c = Return (sup (key d) d c)) ->
       let entities :=
         (((accepted sup device device_config GLOBAL_SENSORS
            ++ accepted_of_components sup circuits device_config
                 CIRCUIT_SENSORS)
           ++ accepted_of_components sup burners device_config
                BURNER_SENSORS)
          ++ accepted_of_components sup compressors device_config
               COMPRESSOR_SENSORS)%list in
       _build_entities is_supported get_circuits get_burners get_compressors
         device device_config = Return entities
       /\ forall s, In s entities ->
            sup (key (entity_description s)) (entity_description s) (_api s)
            = true)
    /\ (forall e,
          _build_entities is_supported get_circuits get_burners
            get_compressors device device_config = Raise e ->
          (exists d api, is_supported (key d) d api = Raise e)
          \/ get_circuits device = Raise e
          \/ get_burners device = Raise e
          \/ get_compressors device = Raise e)
    /\ (forall e,
          _build_entities is_supported get_circuits get_burners
            get_compressors device device_config = Raise e
          <-> probe_raises_first is_supported device GLOBAL_SENSORS e
              \/ (probe_answers is_supported device GLOBAL_SENSORS
                  /\ stage_raises is_supported get_circuits device
                       CIRCUIT_SENSORS e)
              \/ (probe_answers is_supported device GLOBAL_SENSORS
                  /\ stage_passes is_supported get_circuits device
                       CIRCUIT_SENSORS
                  /\ stage_raises is_supported get_burners device
                       BURNER_SENSORS e)
              \/ (probe_answers is_supported device GLOBAL_SENSORS
                  /\ stage_passes is_supported get_circuits device
                       CIRCUIT_SENSORS
                  /\ stage_passes is_supported get_burners device
                       BURNER_SENSORS
                  /\ stage_raises is_supported get_compressors device
                       COMPRESSOR_SENSORS e)).
Proof.
  intros is_supported get_circuits get_burners get_compressors device
    device_config.
  split; [ | split].
  - intros sup circuits burners compressors Hdev Hcs Hc Hbs Hb Hps Hp entities.
    split.
    + unfold _build_entities, _build_entities_for_device.
      rewrite (sensors_of_total _ sup) by exact Hdev. simpl.
      rewrite Hcs. simpl.
      rewrite (_build_entities_for_component_total _ sup) by exact Hc. simpl.
      rewrite Hbs. simpl.
      rewrite (_build_entities_for_component_total _ sup) by exact Hb. simpl.
      rewrite Hps. simpl.
      rewrite (_build_entities_for_component_total _ sup) by exact Hp. simpl.
      reflexivity.
    + intros s Hin. unfold entities in Hin.
      repeat (apply in_app_or in Hin as [Hin | Hin]);
        [ apply accepted_In in Hin
        | apply accepted_of_components_In in Hin
        | apply accepted_of_components_In in Hin
        | apply accepted_of_components_In in Hin ];
        apply Hin.
  - intros e Hrun. unfold _build_entities, _build_entities_for_device in Hrun.
    apply bind_Raise_inv in Hrun as [H0 | [l0 [_ Hrun]]].
    { destruct (sensors_of_Raise _ _ _ _ _ H0) as [d [_ Hd]]. left. eauto. }
    apply bind_Raise_inv in Hrun as [Hcs | [cs [_ Hrun]]]; [auto | ].
    apply bind_Raise_inv in Hrun as [H1 | [l1 [_ Hrun]]].
    { destruct (_build_entities_for_component_Raise _ _ _ _ _ H1)
        as [c [d [_ [_ Hd]]]]. left. eauto. }
    apply bind_Raise_inv in Hrun as [Hbs | [bs [_ Hrun]]]; [auto | ].
    apply bind_Raise_inv in Hrun as [H2 | [l2 [_ Hrun]]].
    { destruct (_build_entities_for_component_Raise _ _ _ _ _ H2)
        as [c [d [_ [_ Hd]]]]. left. eauto. }
    apply bind_Raise_inv in Hrun as [Hps | [ps [_ Hrun]]]; [auto | ].
    apply bind_Raise_inv in Hrun as [H3 | [l3 [_ Hrun]]].
    { destruct (_build_entities_for_component_Raise _ _ _ _ _ H3)
        as [c [d [_ [_ Hd]]]]. left. eauto. }
    discriminate Hrun.
  - intros e. unfold _build_entities, _build_entities_for_device.
    unfold stage_raises, stage_passes. split.
    + intros Hrun.
      apply bind_Raise_inv in Hrun as [H0 | [l0 [H0 Hrun]]].
      { left. apply (proj1 (sensors_of_Raise_iff _ _ _ _ _) H0). }
      assert (A0 : probe_answers is_supported device GLOBAL_SENSORS).
      { apply (proj1 (sensors_of_Return_iff _ _ device_config _)). eauto. }
      apply bind_Raise_inv in Hrun as [Hcs | [cs [Hcs Hrun]]];
        [right; left; auto | ].
      apply bind_Raise_inv in Hrun as [H1 | [l1 [H1 Hrun]]].
      { right. left. split; [exact A0 | ]. right. exists cs.
        split; [exact Hcs | ].
        apply (proj1 (_build_entities_for_component_Raise_iff _ _ _ _ _) H1). }
      assert (A1 : all_answer is_supported cs CIRCUIT_SENSORS).
      { apply (proj1 (_build_entities_for_component_Return_iff
                        _ _ device_config _)). eauto. }
      apply bind_Raise_inv in Hrun as [Hbs | [bs [Hbs Hrun]]];
        [right; right; left; eauto 6 | ].
      apply bind_Raise_inv in Hrun as [H2 | [l2 [H2 Hrun]]].
      { right. right. left. split; [exact A0 | ]. split; [eauto | ].
        right. exists bs. split; [exact Hbs | ].
        apply (proj1 (_build_entities_for_component_Raise_iff _ _ _ _ _) H2). }
      assert (A2 : all_answer is_supported bs BURNER_SENSORS).
      { apply (proj1 (_build_entities_for_component_Return_iff
                        _ _ device_config _)). eauto. }
      right. right. right.
      split; [exact A0 | ]. split; [eauto | ]. split; [eauto | ].
      apply bind_Raise_inv in Hrun as [Hps | [ps [Hps Hrun]]];
        [left; exact Hps | ].
      right. exists ps. split; [exact Hps | ].
      apply bind_Raise_inv in Hrun as [H3 | [l3 [_ Hrun]]];
        [ | discriminate Hrun].
      apply (proj1 (_build_entities_for_component_Raise_iff _ _ _ _ _) H3).
    + intros [H0 | Hlater].
      { rewrite (proj2 (sensors_of_Raise_iff _ _ device_config _ _) H0).
        reflexivity. }
      assert (A0 : probe_answers is_supported device GLOBAL_SENSORS)
        by (destruct Hlater as [[A _] | [[A _] | [A _]]]; exact A).
      destruct (proj2 (sensors_of_Return_iff _ _ device_config _) A0)
        as [l0 ->]. cbn [bind].
      destruct Hlater as [[_ Hone] | Hlater].
      { destruct Hone as [Hcs | [cs [Hcs H1]]]; rewrite Hcs; cbn [bind];
          [reflexivity | ].
        rewrite (proj2 (_build_entities_for_component_Raise_iff
                          _ _ device_config _ _) H1). reflexivity. }
      assert (P1 : exists cs, get_circuits device = Return cs
                              /\ all_answer is_supported cs CIRCUIT_SENSORS)
        by (destruct Hlater as [[_ [P _]] | [_ [P _]]]; exact P).
      destruct P1 as [cs [Hcs A1]]. rewrite Hcs. cbn [bind].
      destruct (proj2 (_build_entities_for_component_Return_iff
                         _ _ device_config _) A1) as [l1 ->]. cbn [bind].
      destruct Hlater as [[_ [_ Htwo]] | [_ [_ [P2 Hthree]]]].
      { destruct Htwo as [Hbs | [bs [Hbs H2]]]; rewrite Hbs; cbn [bind];
          [reflexivity | ].
        rewrite (proj2 (_build_entities_for_component_Raise_iff
                          _ _ device_config _ _) H2). reflexivity. }
      destruct P2 as [bs [Hbs A2]]. rewrite Hbs. cbn [bind].
      destruct (proj2 (_build_entities_for_component_Return_iff
                         _ _ device_config _) A2) as [l2 ->]. cbn [bind].
      destruct Hthree as [Hps | [ps [Hps H3]]]; rewrite Hps; cbn [bind];
        [reflexivity | ].
      rewrite (proj2 (_build_entities_for_component_Raise_iff
                        _ _ device_config _ _) H3). reflexivity.
Qed.

Lemma _build_entities_raises_nothing_of_its_own_witness :
  let entities :=
    (((accepted sample_sup 0 sample_config GLOBAL_SENSORS
       ++ accepted_of_components sample_sup [1] sample_config CIRCUIT_SENSORS)
      ++ accepted_of_components sample_sup [] sample_config BURNER_SENSORS)
     ++ accepted_of_components sample_sup [] sample_config
          COMPRESSOR_SENSORS)%list in
  _build_entities sample_is_supported sample_get_circuits
    sample_no_components sample_no_components 0 sample_config
  = Return entities
  /\ forall s, In s entities ->
       sample_sup (key (entity_description s)) (entity_description s) (_api s)
       = true.
Proof.
  apply (proj1 (_build_entities_raises_nothing_of_its_own
                  sample_is_supported sample_get_circuits
                  sample_no_components sample_no_components 0 sample_config)
           sample_sup [1] [] []).
  - intros d Hd. simpl in Hd.
    destruct Hd as [<- | [<- | [<- | [<- | []]]]]; reflexivity.
  - reflexivity.
  - intros c d Hc Hd. simpl in Hc, Hd.
    destruct Hc as [<- | []].
    destruct Hd as [<- | [<- | []]]; reflexivity.
  - reflexivity.
  - intros c d [].
  - reflexivity.
  - intros c d [].
Defined.

(** * Further properties of the polled sensor *)

(** X1: a poll raises exactly when the accessor raised an error outside the
    five classes [update] catches; it then raises that same error, leaves
    the sensor as it was and logs nothing. *)
Theorem update_raises_iff_unhandled :
  forall (cloud : Cloud) (self : ViCareBinarySensor) (e : PyException),
    (outcome (update cloud self) = Raise e
     <-> accessor_call cloud self = Raise e /\ is_handled_error e = false)
    /\ (outcome (update cloud self) = Raise e ->
        after (update cloud self) = self /\ logged (update cloud self) = []).
Proof.
  intros cloud self e.
  destruct (accessor_call cloud self) as [v | e'] eqn:Hcall.
  - rewrite (update_returned _ _ _ Hcall). simpl.
    split; [split | ]; intros H; try discriminate.
    destruct H as [H _]. discriminate.
  - destruct (is_handled_error e') eqn:Hh.
    + assert (Hout : outcome (update cloud self) = Return tt).
      { unfold update, update_suppressed, accessor_call in *. rewrite Hcall.
        destruct e'; simpl in Hh; try discriminate; reflexivity. }
      rewrite Hout.
      split; [split | ]; intros H; try discriminate.
      destruct H as [H Hno]. injection H as ->. congruence.
    + rewrite (update_escapes _ _ _ Hcall Hh). simpl.
      split; [split | ].
      * intros H. injection H as ->. auto.
      * intros [H _]. injection H as ->. reflexivity.
      * intros _. auto.
Qed.

(** X2: a poll writes a log record exactly when the accessor raised a
    connection, decoding, rate-limit or invalid-data error; it never writes
    more than one record, and every record is at level ERROR. *)
Theorem update_logs_iff_logged_error :
  forall (cloud : Cloud) (self : ViCareBinarySensor),
    (logged (update cloud self) <> []
     <-> exists e, accessor_call cloud self = Raise e
                   /\ is_logged_error e = true)
    /\ List.length (logged (update cloud self)) <= 1
    /\ Forall (fun r => levelname r = ERROR) (logged (update cloud self)).
Proof.
  intros cloud self.
  unfold update, update_suppressed, accessor_call.
  destruct (value_getter (entity_description self) (cloud (_api self)))
    as [v | e]; [ | destruct e ]; simpl;
    (split; [split | split; [lia | repeat constructor]]);
    try (intros H; contradiction H; reflexivity);
    try (intros [e' [H He']]; try discriminate H;
         injection H as <-; discriminate He');
    try (intros _; eexists; split; reflexivity);
    try (intros _; discriminate).
Qed.

(** X3: the log record of a poll tells which [except] clause caught the
    error and, for the rate-limit and invalid-data clauses, the error text
    the line interpolates, and it tells nothing else: two polls, of any
    sensors, that each met a logged error write the same record exactly
    when the same clause caught both errors with the same interpolated
    text.  Connection and decoding errors log a constant line, so nothing
    of their own text or subclass is in the record. *)
Theorem update_log_identifies_handler :
  forall (cloud1 cloud2 : Cloud) (s1 s2 : ViCareBinarySensor)
         (e1 e2 : PyException),
    accessor_call cloud1 s1 = Raise e1 ->
    accessor_call cloud2 s2 = Raise e2 ->
    is_logged_error e1 = true ->
    is_logged_error e2 = true ->
    (logged (update cloud1 s1) = logged (update cloud2 s2)
     <-> handler_of e1 = handler_of e2
         /\ interpolated_text e1 = interpolated_text e2).
Proof.
  intros cloud1 cloud2 s1 s2 e1 e2 H1 H2 L1 L2.
  unfold update, update_suppressed, accessor_call in *.
  rewrite H1, H2.
  destruct e1; simpl in L1; try discriminate L1;
    destruct e2; simpl in L2; try discriminate L2;
    simpl; split;
    try (intros Hlog; discriminate Hlog);
    try (intros [Hh Ht]; discriminate Hh);
    try (intros _; split; reflexivity);
    try (intros _; reflexivity);
    try (intros Hlog; injection Hlog as ->; split; reflexivity);
    try (intros [_ Ht]; injection Ht as ->; reflexivity).
Qed.

Lemma update_log_identifies_handler_witness :
  logged (update sample_cloud_rate_limited sample_sensor)
  = logged (update sample_cloud_rate_limited sample_sensor_unknown)
  <-> handler_of (PyViCareRateLimitError "API_RATE_LIMIT")
      = handler_of (PyViCareRateLimitError "API_RATE_LIMIT")
      /\ interpolated_text (PyViCareRateLimitError "API_RATE_LIMIT")
         = interpolated_text (PyViCareRateLimitError "API_RATE_LIMIT").
Proof.
  apply (update_log_identifies_handler sample_cloud_rate_limited
           sample_cloud_rate_limited sample_sensor sample_sensor_unknown
           (PyViCareRateLimitError "API_RATE_LIMIT")
           (PyViCareRateLimitError "API_RATE_LIMIT"));
    reflexivity.
Defined.

(** X4: an accessor that returns [None] empties the state cell: whatever
    the sensor held, after the poll it holds nothing and is unavailable,
    though the poll returns normally and logs nothing. *)
Theorem update_None_resets :
  forall (cloud : Cloud) (self : ViCareBinarySensor),
    accessor_call cloud self = Return None ->
    update cloud self = mkEffect (set_attr_is_on None self) [] (Return tt)
    /\ _attr_is_on (after (update cloud self)) = None
    /\ available (after (update cloud self)) = false.
Proof.
  intros cloud self Hcall.
  rewrite (update_returned _ _ _ Hcall). simpl. auto.
Qed.

Lemma update_None_resets_witness :
  update sample_cloud_none sample_sensor
  = mkEffect (set_attr_is_on None sample_sensor) [] (Return tt)
  /\ _attr_is_on (after (update sample_cloud_none sample_sensor)) = None
  /\ available (after (update sample_cloud_none sample_sensor)) = false.
Proof.
  apply (update_None_resets sample_cloud_none sample_sensor).
  reflexivity.
Defined.

(** X5: after a poll the sensor is available exactly when the accessor
    returned a boolean, or raised while the sensor was available before. *)
Theorem available_after_update :
  forall (cloud : Cloud) (self : ViCareBinarySensor),
    available (after (update cloud self)) = true
    <-> (exists b, accessor_call cloud self = Return (Some b))
        \/ (accessor_raised cloud self /\ available self = true).
Proof.
  intros cloud self. unfold accessor_raised.
  destruct (accessor_call cloud self) as [v | e] eqn:Hcall.
  - rewrite (update_returned _ _ _ Hcall). unfold available. simpl.
    destruct v as [b | ]; split; intros H; try reflexivity.
    + left. eauto.
    + discriminate.
    + destruct H as [[b H] | [[e H] _]]; discriminate.
  - rewrite (update_raised_state _ _ _ Hcall).
    split; intros H.
    + right. split; [eauto | exact H].
    + destruct H as [[b H] | [_ H]]; [discriminate | exact H].
Qed.

(** A run of polls in two parts is the second part run after the first. *)
Lemma polls_app before later : forall self,
  polls (before ++ later) self = polls later (polls before self).
Proof.
  induction before as [ | cloud rest IH]; intros self; simpl.
  - reflexivity.
  - apply IH.
Qed.

(** The accessor is called on the same object with the same descriptor
    however many polls went before. *)
Lemma accessor_call_polls clouds cloud self :
  accessor_call cloud (polls clouds self) = accessor_call cloud self.
Proof.
  unfold accessor_call. rewrite (polls_frame clouds self). reflexivity.
Qed.

(** Polls at which the accessor raises change nothing. *)
Lemma polls_raised_unchanged clouds : forall self,
  Forall (fun cloud => accessor_raised cloud self) clouds ->
  polls clouds self = self.
Proof.
  induction clouds as [ | cloud later IH]; intros self Hall; simpl.
  - reflexivity.
  - inversion Hall as [ | c l [e Hnow] Hlater]; subst.
    rewrite (update_raised_state _ _ _ Hnow).
    apply IH. exact Hlater.
Qed.

(** X6: a stale value survives any number of failed polls: over a run of
    polls in each of which the accessor raises, whatever the error, the
    sensor stays exactly as it was, state cell and availability included. *)
Theorem polls_all_failing_keep_sensor :
  forall (clouds : list Cloud) (self : ViCareBinarySensor),
    Forall (fun cloud => accessor_raised cloud self) clouds ->
    polls clouds self = self
    /\ _attr_is_on (polls clouds self) = _attr_is_on self
    /\ available (polls clouds self) = available self.
Proof.
  intros clouds self Hall.
  rewrite (polls_raised_unchanged clouds self Hall).
  repeat split; reflexivity.
Qed.

Lemma polls_all_failing_keep_sensor_witness :
  polls [sample_cloud_offline; sample_cloud_broken; sample_cloud_unsupported]
    sample_sensor = sample_sensor
  /\ _attr_is_on
       (polls [sample_cloud_offline; sample_cloud_broken;
               sample_cloud_unsupported] sample_sensor)
     = _attr_is_on sample_sensor
  /\ available
       (polls [sample_cloud_offline; sample_cloud_broken;
               sample_cloud_unsupported] sample_sensor)
     = available sample_sensor.
Proof.
  apply (polls_all_failing_keep_sensor
           [sample_cloud_offline; sample_cloud_broken;
            sample_cloud_unsupported] sample_sensor).
  repeat constructor; eexists; reflexivity.
Defined.

(** X7: the last answer wins: after a run of polls the state cell holds
    what the accessor returned at the last poll at which it returned,
    whatever the polls before that did and whatever the sensor held at the
    start. *)
Theorem polls_last_returned_value :
  forall (before later : list Cloud) (cloud : Cloud)
         (self : ViCareBinarySensor) (v : PyBool),
    accessor_call cloud self = Return v ->
    Forall (fun c => accessor_raised c self) later ->
    polls (before ++ cloud :: later) self = set_attr_is_on v self
    /\ _attr_is_on (polls (before ++ cloud :: later) self) = v.
Proof.
  intros before later cloud self v Hret Hlater.
  assert (Hrun : polls (before ++ cloud :: later) self = set_attr_is_on v self).
  { rewrite polls_app. simpl.
    assert (Hcall : accessor_call cloud (polls before self) = Return v)
      by (rewrite accessor_call_polls; exact Hret).
    rewrite (update_returned _ _ _ Hcall). simpl.
    rewrite polls_raised_unchanged.
    - rewrite (polls_frame before self). reflexivity.
    - apply Forall_forall. intros c Hc.
      destruct (proj1 (Forall_forall _ _) Hlater c Hc) as [e He].
      exists e. unfold accessor_call in *. simpl.
      rewrite (polls_frame before self). simpl. exact He. }
  rewrite Hrun. split; reflexivity.
Qed.

Lemma polls_last_returned_value_witness :
  polls ([sample_cloud_running; sample_cloud_none]
         ++ sample_cloud_stopped :: [sample_cloud_offline])
    sample_sensor_unknown
  = set_attr_is_on (Some false) sample_sensor_unknown
  /\ _attr_is_on
       (polls ([sample_cloud_running; sample_cloud_none]
               ++ sample_cloud_stopped :: [sample_cloud_offline])
          sample_sensor_unknown) = Some false.
Proof.
  apply (polls_last_returned_value
           [sample_cloud_running; sample_cloud_none] [sample_cloud_offline]
           sample_cloud_stopped sample_sensor_unknown (Some false)).
  - reflexivity.
  - repeat constructor. eexists. reflexivity.
Defined.

(** X8: availability is lost only through an accessor that returns [None]:
    when a sensor that was available is unavailable after a run of polls,
    at one of those polls the accessor returned [None].  Errors, caught or
    not, never make an available sensor unavailable. *)
Theorem availability_lost_only_by_None :
  forall (clouds : list Cloud) (self : ViCareBinarySensor),
    available self = true ->
    available (polls clouds self) = false ->
    exists cloud, In cloud clouds /\ accessor_call cloud self = Return None.
Proof.
  induction clouds as [ | cloud later IH]; intros self Hav Hlost; simpl in *.
  - congruence.
  - destruct (accessor_call cloud self) as [[b | ] | e] eqn:Hcall.
    + rewrite (update_returned _ _ _ Hcall) in Hlost. simpl in Hlost.
      destruct (IH (set_attr_is_on (Some b) self) eq_refl Hlost)
        as [c [Hc Hnone]].
      exists c. split; [right; exact Hc | exact Hnone].
    + exists cloud. split; [left; reflexivity | exact Hcall].
    + rewrite (update_raised_state _ _ _ Hcall) in Hlost.
      destruct (IH self Hav Hlost) as [c [Hc Hnone]].
      exists c. split; [right; exact Hc | exact Hnone].
Qed.

Lemma availability_lost_only_by_None_witness :
  exists cloud,
    In cloud [sample_cloud_offline; sample_cloud_none; sample_cloud_broken]
    /\ accessor_call cloud sample_sensor = Return None.
Proof.
  apply (availability_lost_only_by_None
           [sample_cloud_offline; sample_cloud_none; sample_cloud_broken]
           sample_sensor); reflexivity.
Defined.

(** * Further properties of the entity builder *)

(** A comprehension that returned made the sensors of the descriptors on
    which the probe answered true, in the order of the table. *)
Lemma sensors_of_Return_accepted is_supported api device_config descriptions :
  forall entities,
    sensors_of is_supported api device_config descriptions = Return entities ->
    entities = accepted (answered_true is_supported) api device_config
                 descriptions.
Proof.
  unfold accepted, answered_true.
  induction descriptions as [ | d rest IH]; simpl; intros entities Hrun.
  - injection Hrun as <-. reflexivity.
  - apply bind_Return_inv in Hrun as [supported [Hprobe Hrun]].
    apply bind_Return_inv in Hrun as [tail [Htail Hrun]].
    injection Hrun as <-.
    rewrite Hprobe. rewrite (IH _ Htail).
    destruct supported; reflexivity.
Qed.

Lemma _build_entities_for_component_Return_accepted is_supported components
    device_config descriptions :
  forall entities,
    _build_entities_for_component is_supported components device_config
      descriptions = Return entities ->
    entities = accepted_of_components (answered_true is_supported) components
                 device_config descriptions.
Proof.
  unfold accepted_of_components.
  induction components as [ | c rest IH]; simpl; intros entities Hrun.
  - injection Hrun as <-. reflexivity.
  - apply bind_Return_inv in Hrun as [here [Hhere Hrun]].
    apply bind_Return_inv in Hrun as [there [Hthere Hrun]].
    injection Hrun as <-.
    rewrite (sensors_of_Return_accepted _ _ _ _ _ Hhere).
    rewrite (IH _ Hthere). reflexivity.
Qed.

(** [_build_entities], when it returns, returns the four comprehensions
    one after the other. *)
Lemma _build_entities_Return_accepted is_supported get_circuits get_burners
    get_compressors device device_config circuits burners compressors
    entities :
  get_circuits device = Return circuits ->
  get_burners device = Return burners ->
  get_compressors device = Return compressors ->
  _build_entities is_supported get_circuits get_burners get_compressors
    device device_config = Return entities ->
  entities
  = (((accepted (answered_true is_supported) device device_config
         GLOBAL_SENSORS
       ++ accepted_of_components (answered_true is_supported) circuits
            device_config CIRCUIT_SENSORS)
      ++ accepted_of_components (answered_true is_supported) burners
           device_config BURNER_SENSORS)
     ++ accepted_of_components (answered_true is_supported) compressors
          device_config COMPRESSOR_SENSORS)%list.
Proof.
  unfold _build_entities, _build_entities_for_device.
  intros Hcs Hbs Hps Hrun. rewrite Hcs, Hbs, Hps in Hrun.
  apply bind_Return_inv in Hrun as [l0 [H0 Hrun]]. simpl in Hrun.
  apply bind_Return_inv in Hrun as [l1 [H1 Hrun]]. simpl in Hrun.
  apply bind_Return_inv in Hrun as [l2 [H2 Hrun]]. simpl in Hrun.
  apply bind_Return_inv in Hrun as [l3 [H3 Hrun]]. simpl in Hrun.
  injection Hrun as <-.
  rewrite (sensors_of_Return_accepted _ _ _ _ _ H0).
  rewrite (_build_entities_for_component_Return_accepted _ _ _ _ _ H1).
  rewrite (_build_entities_for_component_Return_accepted _ _ _ _ _ H2).
  rewrite (_build_entities_for_component_Return_accepted _ _ _ _ _ H3).
  reflexivity.
Qed.

Lemma accepted_length sup api device_config descriptions :
  List.length (accepted sup api device_config descriptions)
  <= List.length descriptions.
Proof.
  unfold accepted. rewrite length_map. apply filter_length_le.
Qed.

Lemma accepted_of_components_length sup components device_config
    descriptions :
  List.length (accepted_of_components sup components device_config
                 descriptions)
  <= List.length components * List.length descriptions.
Proof.
  unfold accepted_of_components.
  induction components as [ | c rest IH]; simpl.
  - lia.
  - rewrite length_app.
    pose proof (accepted_length sup c device_config descriptions). lia.
Qed.

(** X9: a setup makes at most one sensor for each pair of object and
    descriptor it asks about: when the enumerations return the circuits,
    burners and compressors of the device and [_build_entities] returns,
    it returns at most 4 sensors for the device, 2 for each circuit and 1
    for each burner and each compressor. *)
Theorem _build_entities_size_bound :
  forall (is_supported :
            string -> ViCareBinarySensorEntityDescription -> Handle
            -> Result bool)
         (get_circuits get_burners get_compressors :
            Handle -> Result (list Handle))
         (device : Handle) (device_config : PyViCareDeviceConfig)
         (circuits burners compressors : list Handle)
         (entities : list ViCareBinarySensor),
    get_circuits device = Return circuits ->
    get_burners device = Return burners ->
    get_compressors device = Return compressors ->
    _build_entities is_supported get_circuits get_burners get_compressors
      device device_config = Return entities ->
    List.length entities
    <= 4 + 2 * List.length circuits + List.length burners
       + List.length compressors.
Proof.
  intros is_supported get_circuits get_burners get_compressors device
    device_config circuits burners compressors entities Hcs Hbs Hps Hrun.
  rewrite (_build_entities_Return_accepted _ _ _ _ _ _ _ _ _ _
             Hcs Hbs Hps Hrun).
  rewrite !length_app.
  pose proof (accepted_length (answered_true is_supported) device
                device_config GLOBAL_SENSORS) as H0.
  pose proof (accepted_of_components_length (answered_true is_supported)
                circuits device_config CIRCUIT_SENSORS) as H1.
  pose proof (accepted_of_components_length (answered_true is_supported)
                burners device_config BURNER_SENSORS) as H2.
  pose proof (accepted_of_components_length (answered_true is_supported)
                compressors device_config COMPRESSOR_SENSORS) as H3.
  simpl List.length in H0, H1, H2, H3. lia.
Qed.

Lemma _build_entities_size_bound_witness :
  List.length sample_entities
  <= 4 + 2 * List.length [1] + List.length (@nil Handle)
     + List.length (@nil Handle).
Proof.
  apply (_build_entities_size_bound sample_is_supported sample_get_circuits
           sample_no_components sample_no_components 0 sample_config
           [1] [] []); reflexivity.
Defined.

(** X10: for a device without circuits, burners and compressors the
    setup is the device-level comprehension alone: [_build_entities]
    returns what [_build_entities_for_device] returns, and raises what it
    raises. *)
Theorem _build_entities_without_components :
  forall (is_supported :
            string -> ViCareBinarySensorEntityDescription -> Handle
            -> Result bool)
         (get_circuits get_burners get_compressors :
            Handle -> Result (list Handle))
         (device : Handle) (device_config : PyViCareDeviceConfig),
    get_circuits device = Return [] ->
    get_burners device = Return [] ->
    get_compressors device = Return [] ->
    _build_entities is_supported get_circuits get_burners get_compressors
      device device_config
    = _build_entities_for_device is_supported device device_config.
Proof.
  intros is_supported get_circuits get_burners get_compressors device
    device_config Hcs Hbs Hps.
  unfold _build_entities. rewrite Hcs, Hbs, Hps.
  destruct (_build_entities_for_device is_supported device device_config)
    as [entities | e]; simpl.
  - rewrite !app_nil_r. reflexivity.
  - reflexivity.
Qed.

Lemma _build_entities_without_components_witness :
  _build_entities sample_is_supported sample_no_components
    sample_no_components sample_no_components 0 sample_config
  = _build_entities_for_device sample_is_supported 0 sample_config.
Proof.
  apply (_build_entities_without_components sample_is_supported
           sample_no_components sample_no_components sample_no_components
           0 sample_config); reflexivity.
Defined.

Lemma keys_apart_sound ks ks' :
  keys_apart ks ks' = true ->
  forall k, In k ks -> In k ks' -> False.
Proof.
  unfold keys_apart. intros Hapart k Hk Hk'.
  pose proof (proj1 (forallb_forall _ _) Hapart k Hk) as Hnot.
  apply negb_true_iff in Hnot.
  assert (Hyes : existsb (String.eqb k) ks' = true).
  { apply existsb_exists. exists k. split; [exact Hk' | apply String.eqb_refl]. }
  congruence.
Qed.

(** The identities of the sensors of one comprehension: all on the probed
    object, with keys of the table. *)
Lemma identity_accepted_In sup api device_config descriptions i :
  In i (map identity (accepted sup api device_config descriptions)) ->
  fst i = api /\ In (snd i) (map key descriptions).
Proof.
  intros Hin. apply in_map_iff in Hin as [s [<- Hs]].
  apply accepted_In in Hs as [Hd [Hapi _]].
  unfold identity. simpl. split; [exact Hapi | apply in_map; exact Hd].
Qed.

Lemma identity_accepted_of_components_In sup components device_config
    descriptions i :
  In i (map identity
          (accepted_of_components sup components device_config descriptions)) ->
  In (fst i) components /\ In (snd i) (map key descriptions).
Proof.
  intros Hin. apply in_map_iff in Hin as [s [<- Hs]].
  apply accepted_of_components_In in Hs as [Hd [Hapi _]].
  unfold identity. simpl. split; [exact Hapi | apply in_map; exact Hd].
Qed.

Lemma NoDup_identity_accepted sup api device_config descriptions :
  NoDup (map key descriptions) ->
  NoDup (map identity (accepted sup api device_config descriptions)).
Proof.
  induction descriptions as [ | d rest IH]; simpl; intros Hnd.
  - constructor.
  - inversion Hnd as [ | k ks Hnotin Hrest]; subst.
    unfold accepted in *. simpl.
    destruct (sup (key d) d api); simpl.
    + constructor; [ | apply IH; exact Hrest].
      intros Hin.
      apply (identity_accepted_In sup api device_config rest) in Hin.
      simpl in Hin. apply Hnotin. apply Hin.
    + apply IH. exact Hrest.
Qed.

Lemma NoDup_identity_accepted_of_components sup components device_config
    descriptions :
  NoDup components ->
  NoDup (map key descriptions) ->
  NoDup (map identity
           (accepted_of_components sup components device_config descriptions)).
Proof.
  intros Hcs Hks.
  induction components as [ | c rest IH]; simpl.
  - constructor.
  - inversion Hcs as [ | c' cs' Hnotin Hrest]; subst.
    unfold accepted_of_components in *. simpl. rewrite map_app.
    apply NoDup_app.
    + apply NoDup_identity_accepted. exact Hks.
    + apply IH. exact Hrest.
    + intros i Hhere Hthere.
      apply identity_accepted_In in Hhere as [Hapi _].
      apply (identity_accepted_of_components_In sup rest device_config
               descriptions) in Hthere as [Hin _].
      apply Hnotin. rewrite <- Hapi. exact Hin.
Qed.

(** X11: no two sensors of one setup stand for the same feature of the
    same object: when the enumerations return each circuit, burner and
    compressor once and [_build_entities] returns, the pairs of bound object
    and descriptor key of the returned sensors are pairwise distinct, also
    when one object is, say, both the device and a circuit. *)
Theorem _build_entities_identities_distinct :
  forall (is_supported :
            string -> ViCareBinarySensorEntityDescription -> Handle
            -> Result bool)
         (get_circuits get_burners get_compressors :
            Handle -> Result (list Handle))
         (device : Handle) (device_config : PyViCareDeviceConfig)
         (circuits burners compressors : list Handle)
         (entities : list ViCareBinarySensor),
    get_circuits device = Return circuits ->
    get_burners device = Return burners ->
    get_compressors device = Return compressors ->
    NoDup circuits -> NoDup burners -> NoDup compressors ->
    _build_entities is_supported get_circuits get_burners get_compressors
      device device_config = Return entities ->
    NoDup (map identity entities).
Proof.
  intros is_supported get_circuits get_burners get_compressors device
    device_config circuits burners compressors entities Hcs Hbs Hps
    Ncs Nbs Nps Hrun.
  rewrite (_build_entities_Return_accepted _ _ _ _ _ _ _ _ _ _
             Hcs Hbs Hps Hrun).
  assert (Kg : NoDup (map key GLOBAL_SENSORS))
    by exact GLOBAL_SENSORS_keys_distinct.
  assert (Kc : NoDup (map key CIRCUIT_SENSORS))
    by (simpl; repeat constructor; simpl; intuition discriminate).
  assert (Kb : NoDup (map key BURNER_SENSORS))
    by (simpl; repeat constructor; simpl; intuition discriminate).
  assert (Kp : NoDup (map key COMPRESSOR_SENSORS))
    by (simpl; repeat constructor; simpl; intuition discriminate).
  rewrite !map_app.
  apply NoDup_app; [apply NoDup_app; [apply NoDup_app | | ] | | ].
  - apply NoDup_identity_accepted. exact Kg.
  - apply NoDup_identity_accepted_of_components; assumption.
  - intros i H0 H1.
    apply identity_accepted_In in H0 as [_ H0].
    apply identity_accepted_of_components_In in H1 as [_ H1].
    apply (keys_apart_sound (map key GLOBAL_SENSORS)
             (map key CIRCUIT_SENSORS) eq_refl (snd i) H0 H1).
  - apply NoDup_identity_accepted_of_components; assumption.
  - intros i H01 H2.
    apply identity_accepted_of_components_In in H2 as [_ H2].
    apply in_app_or in H01 as [H0 | H1].
    + apply identity_accepted_In in H0 as [_ H0].
      apply (keys_apart_sound (map key GLOBAL_SENSORS)
               (map key BURNER_SENSORS) eq_refl (snd i) H0 H2).
    + apply identity_accepted_of_components_In in H1 as [_ H1].
      apply (keys_apart_sound (map key CIRCUIT_SENSORS)
               (map key BURNER_SENSORS) eq_refl (snd i) H1 H2).
  - apply NoDup_identity_accepted_of_components; assumption.
  - intros i H012 H3.
    apply identity_accepted_of_components_In in H3 as [_ H3].
    apply in_app_or in H012 as [H01 | H2].
    apply in_app_or in H01 as [H0 | H1].
    + apply identity_accepted_In in H0 as [_ H0].
      apply (keys_apart_sound (map key GLOBAL_SENSORS)
               (map key COMPRESSOR_SENSORS) eq_refl (snd i) H0 H3).
    + apply identity_accepted_of_components_In in H1 as [_ H1].
      apply (keys_apart_sound (map key CIRCUIT_SENSORS)
               (map key COMPRESSOR_SENSORS) eq_refl (snd i) H1 H3).
    + apply identity_accepted_of_components_In in H2 as [_ H2].
      apply (keys_apart_sound (map key BURNER_SENSORS)
               (map key COMPRESSOR_SENSORS) eq_refl (snd i) H2 H3).
Qed.

Lemma _build_entities_identities_distinct_witness :
  NoDup (map identity sample_entities).
Proof.
  apply (_build_entities_identities_distinct sample_is_supported
           sample_get_circuits sample_no_components sample_no_components
           0 sample_config [1] [] []);
    try reflexivity; repeat constructor; simpl; intuition.
Defined.





(** A comprehension all of whose probes answer returns a list. *)
Lemma sensors_of_returns is_supported api device_config descriptions :
  (forall d, In d descriptions ->
     exists b, is_supported (key d) d api = Return b) ->
  exists entities,
    sensors_of is_supported api device_config descriptions = Return entities.
Proof.
  induction descriptions as [ | d rest IH]; simpl; intros Hall.
  - eauto.
  - destruct (Hall d (or_introl eq_refl)) as [b ->].
    destruct IH as [tail ->]; [intros d' Hd'; apply Hall; right; exact Hd' | ].
    simpl. eauto.
Qed.

Lemma _build_entities_for_component_returns is_supported components
    device_config descriptions :
  (forall c d, In c components -> In d descriptions ->
     exists b, is_supported (key d) d c = Return b) ->
  exists entities,
    _build_entities_for_component is_supported components device_config
      descriptions = Return entities.
Proof.
  induction components as [ | c rest IH]; simpl; intros Hall.
  - eauto.
  - destruct (sensors_of_returns is_supported c device_config descriptions)
      as [here ->];
      [intros d Hd; apply Hall; [left; reflexivity | exact Hd] | ].
    destruct IH as [there ->];
      [intros c' d Hc' Hd; apply Hall; [right; exact Hc' | exact Hd] | ].
    simpl. eauto.
Qed.

(** Within one comprehension the first probe that raises decides. *)
Lemma sensors_of_first_raise is_supported api device_config earlier d later e :
  (forall d', In d' earlier ->
     exists b, is_supported (key d') d' api = Return b) ->
  is_supported (key d) d api = Raise e ->
  sensors_of is_supported api device_config (earlier ++ d :: later) = Raise e.
Proof.
  induction earlier as [ | d0 rest IH]; simpl; intros Hall Hraise.
  - rewrite Hraise. reflexivity.
  - destruct (Hall d0 (or_introl eq_refl)) as [b ->]. simpl.
    rewrite IH; [reflexivity | | exact Hraise].
    intros d' Hd'. apply Hall. right. exact Hd'.
Qed.

(** X13: the error of a component setup is the error of the first probe
    that raises, going component by component and, within a component,
    descriptor by descriptor: when every earlier probe answered, the
    builder raises that error, whatever the later probes would do; the
    sensors made before it are not returned. *)
Theorem _build_entities_for_component_first_raise :
  forall (is_supported :
            string -> ViCareBinarySensorEntityDescription -> Handle
            -> Result bool)
         (done : list Handle) (component : Handle) (todo : list Handle)
         (device_config : PyViCareDeviceConfig)
         (earlier : list ViCareBinarySensorEntityDescription)
         (description : ViCareBinarySensorEntityDescription)
         (later : list ViCareBinarySensorEntityDescription)
         (e : PyException),
    (forall c d, In c done -> In d (earlier ++ description :: later) ->
       exists b, is_supported (key d) d c = Return b) ->
    (forall d, In d earlier ->
       exists b, is_supported (key d) d component = Return b) ->
    is_supported (key description) description component = Raise e ->
    _build_entities_for_component is_supported (done ++ component :: todo)
      device_config (earlier ++ description :: later) = Raise e.
Proof.
  intros is_supported done component todo device_config earlier description
    later e.
  induction done as [ | c rest IH]; simpl; intros Hdone Hearlier Hraise.
  - rewrite (sensors_of_first_raise _ _ _ _ _ _ _ Hearlier Hraise).
    reflexivity.
  - destruct (sensors_of_returns is_supported c device_config
                (earlier ++ description :: later)) as [here ->];
      [intros d Hd; apply Hdone; [left; reflexivity | exact Hd] | ].
    simpl. rewrite IH; [reflexivity | | exact Hearlier | exact Hraise].
    intros c' d Hc' Hd. apply Hdone; [right; exact Hc' | exact Hd].
Qed.

Lemma _build_entities_for_component_first_raise_witness :
  _build_entities_for_component probe_frost_offline ([1] ++ 2 :: [3])
    sample_config
    ([nth 0 CIRCUIT_SENSORS sample_solar_pump]
     ++ nth 1 CIRCUIT_SENSORS sample_solar_pump :: [])
  = Raise RequestsConnectionError.
Proof.
  apply (_build_entities_for_component_first_raise probe_frost_offline
           [] 1 [2; 3] sample_config
           [nth 0 CIRCUIT_SENSORS sample_solar_pump]
           (nth 1 CIRCUIT_SENSORS sample_solar_pump) []
           RequestsConnectionError).
  - intros c d [].
  - intros d [<- | []]. exists true. reflexivity.
  - reflexivity.
Defined.

(** X14: building for a list of components in two parts is building for
    each part and joining the lists; an error of the first part comes
    first, and one of the second part is raised only after the first part
    went through. *)
Theorem _build_entities_for_component_app :
  forall (is_supported :
            string -> ViCareBinarySensorEntityDescription -> Handle
            -> Result bool)
         (first second : list Handle) (device_config : PyViCareDeviceConfig)
         (entity_descriptions : list ViCareBinarySensorEntityDescription),
    _build_entities_for_component is_supported (first ++ second)
      device_config entity_descriptions
    = (here <- _build_entities_for_component is_supported first
                 device_config entity_descriptions ;;
       there <- _build_entities_for_component is_supported second
                  device_config entity_descriptions ;;
       Return (here ++ there)%list).
Proof.
  intros is_supported first second device_config entity_descriptions.
  induction first as [ | c rest IH]; simpl.
  - destruct (_build_entities_for_component is_supported second device_config
                entity_descriptions); reflexivity.
  - destruct (sensors_of is_supported c device_config entity_descriptions)
      as [here | e]; simpl; [ | reflexivity].
    rewrite IH.
    destruct (_build_entities_for_component is_supported rest device_config
                entity_descriptions) as [l1 | e1]; simpl; [ | reflexivity].
    destruct (_build_entities_for_component is_supported second device_config
                entity_descriptions) as [l2 | e2]; simpl; [ | reflexivity].
    rewrite app_assoc. reflexivity.
Qed.

(** X15: with no component to look at, or with an empty descriptor table,
    the component builder returns the empty list without asking the probe,
    so that no behaviour of the probe can make it raise. *)
Theorem _build_entities_for_component_nothing_to_ask :
  forall (is_supported :
            string -> ViCareBinarySensorEntityDescription -> Handle
            -> Result bool)
         (components : list Handle) (device_config : PyViCareDeviceConfig)
         (entity_descriptions : list ViCareBinarySensorEntityDescription),
    _build_entities_for_component is_supported [] device_config
      entity_descriptions = Return []
    /\ _build_entities_for_component is_supported components device_config
         [] = Return [].
Proof.
  intros is_supported components device_config entity_descriptions.
  split; [reflexivity | ].
  induction components as [ | c rest IH]; simpl.
  - reflexivity.
  - rewrite IH. reflexivity.
Qed.

Lemma answered_true_iff is_supported name description api :
  answered_true is_supported name description api = true
  <-> is_supported name description api = Return true.
Proof.
  unfold answered_true.
  destruct (is_supported name description api) as [[ | ] | e];
    split; intros H; try reflexivity; try discriminate.
Qed.

Lemma accepted_iff sup api device_config descriptions s :
  In s (accepted sup api device_config descriptions)
  <-> exists d, In d descriptions /\ sup (key d) d api = true
                /\ s = __init__ api device_config d.
Proof.
  unfold accepted. rewrite in_map_iff. split.
  - intros [d [<- Hd]]. apply filter_In in Hd as [Hd Hsup]. eauto.
  - intros [d [Hd [Hsup ->]]]. exists d. split; [reflexivity | ].
    apply filter_In. auto.
Qed.

Lemma accepted_of_components_iff sup components device_config descriptions s :
  In s (accepted_of_components sup components device_config descriptions)
  <-> exists c d, In c components /\ In d descriptions
                  /\ sup (key d) d c = true
                  /\ s = __init__ c device_config d.
Proof.
  unfold accepted_of_components. rewrite in_flat_map. split.
  - intros [c [Hc Hs]]. apply accepted_iff in Hs as [d [Hd [Hsup ->]]].
    exists c, d. auto.
  - intros [c [d [Hc [Hd [Hsup ->]]]]]. exists c. split; [exact Hc | ].
    apply accepted_iff. eauto.
Qed.

(** X16: a setup that returns makes a sensor for exactly the questions the
    probe answered with true: a returned sensor is bound to the device with
    a global descriptor, or to a circuit, burner or compressor with a
    descriptor of that kind, and the probe returned true on it; and every
    such pair on which the probe returned true has its sensor in the list,
    so that no supported feature is left out and no circuit ever gets a
    burner's descriptor. *)
Theorem _build_entities_exactly_supported_in_scope :
  forall (is_supported :
            string -> ViCareBinarySensorEntityDescription -> Handle
            -> Result bool)
         (get_circuits get_burners get_compressors :
            Handle -> Result (list Handle))
         (device : Handle) (device_config : PyViCareDeviceConfig)
         (circuits burners compressors : list Handle)
         (entities : list ViCareBinarySensor) (s : ViCareBinarySensor),
    get_circuits device = Return circuits ->
    get_burners device = Return burners ->
    get_compressors device = Return compressors ->
    _build_entities is_supported get_circuits get_burners get_compressors
      device device_config = Return entities ->
    In s entities
    <-> exists api d,
          in_scope device circuits burners compressors api d
          /\ is_supported (key d) d api = Return true
          /\ s = __init__ api device_config d.
Proof.
  intros is_supported get_circuits get_burners get_compressors device
    device_config circuits burners compressors entities s Hcs Hbs Hps Hrun.
  rewrite (_build_entities_Return_accepted _ _ _ _ _ _ _ _ _ _
             Hcs Hbs Hps Hrun).
  rewrite !in_app_iff, accepted_iff, !accepted_of_components_iff.
  unfold in_scope. split.
  - intros [[[H | H] | H] | H].
    + destruct H as [d [Hd [Hsup ->]]]. apply answered_true_iff in Hsup.
      exists device, d. auto.
    + destruct H as [c [d [Hc [Hd [Hsup ->]]]]].
      apply answered_true_iff in Hsup. exists c, d. auto.
    + destruct H as [c [d [Hc [Hd [Hsup ->]]]]].
      apply answered_true_iff in Hsup. exists c, d. auto 6.
    + destruct H as [c [d [Hc [Hd [Hsup ->]]]]].
      apply answered_true_iff in Hsup. exists c, d. auto 7.
  - intros [api [d [Hscope [Hsup ->]]]].
    apply answered_true_iff in Hsup.
    destruct Hscope as [[-> Hd] | [[Hc Hd] | [[Hc Hd] | [Hc Hd]]]].
    + left. left. left. eauto.
    + left. left. right. exists api, d. auto.
    + left. right. exists api, d. auto.
    + right. exists api, d. auto.
Qed.

Lemma _build_entities_exactly_supported_in_scope_witness :
  In (__init__ 1 sample_config (nth 0 CIRCUIT_SENSORS sample_solar_pump))
     sample_entities
  <-> exists api d,
        in_scope 0 [1] [] [] api d
        /\ sample_is_supported (key d) d api = Return true
        /\ __init__ 1 sample_config (nth 0 CIRCUIT_SENSORS sample_solar_pump)
           = __init__ api sample_config d.
Proof.
  apply (_build_entities_exactly_supported_in_scope sample_is_supported
           sample_get_circuits sample_no_components sample_no_components
           0 sample_config [1] [] [] sample_entities
           (__init__ 1 sample_config
              (nth 0 CIRCUIT_SENSORS sample_solar_pump)));
    reflexivity.
Defined.
